(** * swaggerdocs: generation and verification of swagger documentation

    A shallow embedding of [tools/codegen/pkg/swaggerdocs/swaggerdocs.go]:
    the constants, [generateSwaggerDocs] and [verifySwaggerDocs].

    The two functions are wrappers around library calls
    ([kruntime.VerifySwaggerDocsExist], [kruntime.WriteSwaggerDocFunc],
    [format.Source], [ioutil.ReadFile], [klog.Warningf],
    [reflect.DeepEqual]).  The libraries are not part of the package, so
    the three services that compute something are an interface
    ([Services]) the development is parametric in; the file system, the
    store holding the documentation records and the list of library calls
    performed are explicit state. *)

From Stdlib Require Import Ascii String ZArith Lia.
From stdpp Require Import base option list strings gmap pretty.

Open Scope Z_scope.
Open Scope string_scope.

(** ** Go values *)

(** The line feed, Go's "\n". *)
Definition LF : string := String "010"%char EmptyString.

(** A Go [error]: a value with a message that may wrap another error. *)
Inductive error : Type :=
| errorString (s : string)
| wrapError (msg : string) (err : error).

(** The method [Error()]. *)
Definition Error (e : error) : string :=
  match e with
  | errorString s => s
  | wrapError msg _ => msg
  end.

(** [errors.Unwrap]. *)
Definition Unwrap (e : error) : option error :=
  match e with
  | errorString _ => None
  | wrapError _ err => Some err
  end.

(** [errors.New(text)]. *)
Definition errors_New (text : string) : error := errorString text.

(** [fmt.Errorf(prefix + "%w", err)]: the message is the prefix followed by
    the message of [err], and the result unwraps to [err]. *)
Definition fmt_Errorf_w (prefix : string) (err : error) : error :=
  wrapError (prefix ++ Error err) err.

(** A call that returns [(T, error)] and, by its contract, exactly one of
    the two. *)
Inductive result (T : Type) : Type :=
| Ok (v : T)
| Err (err : error).
Arguments Ok {T} v.
Arguments Err {T} err.

(** ** Documentation records *)

(** Modelled from the spec: the declarations of [kruntime.Pair] and
    [kruntime.KubeTypes] are not in the package; a record is a type name
    and the ordered (field name, description) pairs of its fields
    (DocumentationRecord, section 3). *)
Record Pair : Type := mkPair { Name : string; Doc : string }.

Record KubeTypes : Type := mkKubeTypes { TypeName : string; Fields : list Pair }.

(** Whether a description is the empty string. *)
Definition empty_doc (p : Pair) : bool := String.eqb (Doc p) "".

(** The (type name, field name) pairs of the fields without a description. *)
Definition undocumented (docs : list KubeTypes) : list (string * string) :=
  flat_map (fun t => map (fun p => (TypeName t, Name p)) (filter (fun p => empty_doc p = true) (Fields t))) docs.

(** At least one field of the records has an empty description. *)
Definition has_undocumented (docs : list KubeTypes) : bool :=
  existsb (fun t => existsb empty_doc (Fields t)) docs.

(** The same, as the existence of such a field. *)
Definition some_field_undocumented (docs : list KubeTypes) : Prop :=
  exists (t : KubeTypes) (p : Pair), In t docs /\ In p (Fields t) /\ Doc p = "".

(** ** Constants of the package *)

(** headerContent is a header boilerplate applied to swagger generated files. *)
Definition headerContent : string :=
"// This file contains a collection of methods that can be used from go-restful to
// generate Swagger API documentation for its models. Please read this PR for more
// information on the implementation: https://github.com/emicklei/go-restful/pull/215
//
// TODOs are ignored from the parser (e.g. TODO(andronat):... || TODO:...) if and only if
// they are on one line! For multiple line or blocks that you want to ignore use ---.
// Any context after a --- is ignored.
//
// Those methods can be generated by using hack/update-swagger-docs.sh

// AUTO-GENERATED FUNCTIONS START HERE
".

(** footerContent is a footer boilerplate applied to swagger generated files. *)
Definition footerContent : string := "// AUTO-GENERATED FUNCTIONS END HERE" ++ LF.

(** DefaultOutputFileName is the default output file name for the generated swagger docs. *)
Definition DefaultOutputFileName : string := "zz_generated.swagger_doc_generated.go".

(** typesGlob is a glob used to find all types files within a group version package. *)
Definition typesGlob : string := "types*.go".

(** ** The external services *)

(** What [kruntime.VerifySwaggerDocsExist(kubeTypes, w)] leaves behind: the
    state of the library, the contents of the slice it was handed (it may
    write to its elements), the text written to [w], and the pair
    [(int, error)] it returns. *)
Record CheckOutcome (E : Type) : Type := mkCheckOutcome {
  chk_env : E;
  chk_docs : list KubeTypes;
  chk_out : string;
  chk_rc : Z;
  chk_err : option error
}.
Arguments mkCheckOutcome {E}.
Arguments chk_env {E}.
Arguments chk_docs {E}.
Arguments chk_out {E}.
Arguments chk_rc {E}.
Arguments chk_err {E}.

(** What [kruntime.WriteSwaggerDocFunc(kubeTypes, w)] leaves behind. *)
Record RenderOutcome (E : Type) : Type := mkRenderOutcome {
  rnd_env : E;
  rnd_docs : list KubeTypes;
  rnd_out : string;
  rnd_err : option error
}.
Arguments mkRenderOutcome {E}.
Arguments rnd_env {E}.
Arguments rnd_docs {E}.
Arguments rnd_out {E}.
Arguments rnd_err {E}.

(** The services the package calls into.  [Env] is whatever state of their
    own the libraries have: a service reads it and may change it, so
    nothing here makes two calls with the same arguments agree.
    [Source] is [format.Source]: on success the formatted file, a slice
    that is not nil. *)
Class Services : Type := {
  Env : Type;
  VerifySwaggerDocsExist : Env -> list KubeTypes -> CheckOutcome Env;
  WriteSwaggerDocFunc : Env -> list KubeTypes -> RenderOutcome Env;
  Source : Env -> string -> Env * result string
}.

(** ** State *)

(** A slice of records is the address of its backing store. *)
Definition loc : Type := positive.

(** The library calls a run performs, in order. *)
Inductive Call : Type :=
| call_VerifySwaggerDocsExist (kubeTypes : loc)
| call_Warningf (msg : string)
| call_ReadFile (filename : string)
| call_WriteSwaggerDocFunc (kubeTypes : loc)
| call_Source (src : string)
| call_DeepEqual (x y : option string).

(** ** The failures of the spec's taxonomy, as the values the code builds *)

(** MissingDocsError: the count and the listing of the undocumented fields. *)
Definition MissingDocsError (rc : Z) (listing : string) : error :=
  errorString ("missing swagger docs for the following " ++ pretty rc ++ " fields:" ++ LF ++ listing).

(** ReadError: the baseline file could not be read. *)
Definition ReadError (cause : error) : error :=
  fmt_Errorf_w "error reading existing swagger docs file: " cause.

(** RenderError: the renderer failed on the records. *)
Definition RenderError (cause : error) : error :=
  fmt_Errorf_w "error generating swagger docs for types: " cause.

(** FormatError: the assembled text is not source the formatter accepts. *)
Definition FormatError (cause : error) : error :=
  fmt_Errorf_w "could not format output data: " cause.

(** A failure of generation as [verifySwaggerDocs] reports it. *)
Definition GenerateError (cause : error) : error :=
  fmt_Errorf_w "error generating swagger docs: " cause.

(** StaleError: the baseline differs from the regenerated bytes. *)
Definition StaleError : error :=
  errors_New "swagger docs are out of date, please regenerate the swagger docs".

(** The failure of the completeness checker itself. *)
Definition CheckerError (cause : error) : error :=
  fmt_Errorf_w "could not verify existing docs: " cause.

(** The warning logged when undocumented fields are tolerated. *)
Definition missing_warning (rc : Z) (listing : string) : string :=
  "Existing swagger docs are missing " ++ pretty rc ++ " entries:" ++ LF ++ listing.

(** The text [generateSwaggerDocs] hands to the formatter: package line,
    header, rendered records, footer. *)
Definition assembled (packageName rendered : string) : string :=
  "package " ++ packageName ++ LF ++ headerContent ++ rendered ++ footerContent.

(** Two byte sequences that differ in exactly one position. *)
Definition differ_in_one_byte (d d' : string) : Prop :=
  exists (pre post : string) (a b : ascii),
    a <> b /\ d = pre ++ String a post /\ d' = pre ++ String b post.

Section Swaggerdocs.

Context `{S : Services}.

(** The state a run threads: the store of the slices of records (an absent
    address is the nil slice), the files by path, the state of the
    libraries, and the calls performed so far (oldest first). *)
Record World : Type := mkWorld {
  heap : gmap loc (list KubeTypes);
  files : gmap string string;
  env : Env;
  calls : list Call
}.

(** Computations over the state. *)
Definition M (A : Type) : Type := World -> A * World.

#[export] Instance M_ret : MRet M := fun A a w => (a, w).

#[export] Instance M_bind : MBind M :=
  fun A B f m w => let '(a, w') := m w in f a w'.

(** The result and the final state of a run. *)
Definition result_of {A : Type} (r : A * World) : A := fst r.

Definition world_of {A : Type} (r : A * World) : World := snd r.

(** *** Library calls *)

(** [kruntime.VerifySwaggerDocsExist(kubeTypes, buf)] on an empty buffer:
    the contents of the buffer afterwards and the returned pair. *)
Definition kruntime_VerifySwaggerDocsExist (kubeTypes : loc) : M (string * Z * option error) :=
  fun w =>
    let o := VerifySwaggerDocsExist (env w) (heap w !!! kubeTypes) in
    ((chk_out o, chk_rc o, chk_err o),
     mkWorld (<[kubeTypes := chk_docs o]> (heap w)) (files w) (chk_env o)
             (calls w ++ [call_VerifySwaggerDocsExist kubeTypes])).

(** [kruntime.WriteSwaggerDocFunc(kubeTypes, buf)]: the text appended to
    the buffer and the returned error. *)
Definition kruntime_WriteSwaggerDocFunc (kubeTypes : loc) : M (string * option error) :=
  fun w =>
    let o := WriteSwaggerDocFunc (env w) (heap w !!! kubeTypes) in
    ((rnd_out o, rnd_err o),
     mkWorld (<[kubeTypes := rnd_docs o]> (heap w)) (files w) (rnd_env o)
             (calls w ++ [call_WriteSwaggerDocFunc kubeTypes])).

(** [format.Source(src)]. *)
Definition format_Source (src : string) : M (result string) :=
  fun w =>
    let '(e, r) := Source (env w) src in
    (r, mkWorld (heap w) (files w) e (calls w ++ [call_Source src])).

(** [ioutil.ReadFile(filename)]: the contents of the file, or the error of
    opening a file that does not exist.  The file system here holds
    readable files only: a path names a file that can be read, or nothing.
    The other failures of a read (a directory, missing permissions) are
    not in it. *)
Definition ioutil_ReadFile (filename : string) : M (result string) :=
  fun w =>
    (match files w !! filename with
     | Some data => Ok data
     | None => Err (errorString ("open " ++ filename ++ ": no such file or directory"))
     end,
     mkWorld (heap w) (files w) (env w) (calls w ++ [call_ReadFile filename])).

(** [klog.Warningf] with the message already formatted. *)
Definition klog_Warningf (msg : string) : M unit :=
  fun w => (tt, mkWorld (heap w) (files w) (env w) (calls w ++ [call_Warningf msg])).

(** [reflect.DeepEqual] on two byte slices ([None] is the nil slice): both
    nil, or both not nil and with the same bytes. *)
Definition reflect_DeepEqual (x y : option string) : M bool :=
  fun w =>
    (bool_decide (x = y),
     mkWorld (heap w) (files w) (env w) (calls w ++ [call_DeepEqual x y])).

(** *** The package *)

(** generateSwaggerDocs generates swagger documentation. *)
Definition generateSwaggerDocs (packageName : string) (docsForTypes : loc)
  : M (option string * option error) :=
  let buf := "" in
  let buf := buf ++ ("package " ++ packageName ++ LF) in
  let buf := buf ++ headerContent in
  '(out, err) ← kruntime_WriteSwaggerDocFunc docsForTypes;
  let buf := buf ++ out in
  match err with
  | Some err =>
      mret (None, Some (fmt_Errorf_w "error generating swagger docs for types: " err))
  | None =>
      let buf := buf ++ footerContent in
      (* This formats the output as if we ran gofmt over the file. *)
      r ← format_Source buf;
      match r with
      | Err err => mret (None, Some (fmt_Errorf_w "could not format output data: " err))
      | Ok formattedOut => mret (Some formattedOut, None)
      end
  end.

(** verifySwaggerDocs reads the existing swagger documentation and verifies
    that the content is up to date.  The first step yields the error of an
    early return, if any. *)
Definition verifySwaggerDocs (packageName filePath : string) (docsForTypes : loc)
    (enforceComments : bool) : M (option error) :=
  (* Verify that every field has a doc string. *)
  '(buf, rc, err) ← kruntime_VerifySwaggerDocsExist docsForTypes;
  match err with
  | Some err => mret (Some (fmt_Errorf_w "could not verify existing docs: " err))
  | None =>
      early ← (if bool_decide (rc > 0) then
                 if enforceComments then
                   mret (Some (errorString ("missing swagger docs for the following "
                                            ++ pretty rc ++ " fields:" ++ LF ++ buf)))
                 else
                   klog_Warningf ("Existing swagger docs are missing "
                                  ++ pretty rc ++ " entries:" ++ LF ++ buf);;
                   mret None
               else mret None);
      match early with
      | Some e => mret (Some e)
      | None =>
          (* Verify that the existing data matches the generated data. *)
          r ← ioutil_ReadFile filePath;
          match r with
          | Err err => mret (Some (fmt_Errorf_w "error reading existing swagger docs file: " err))
          | Ok data =>
              (* This mutates docsForTypes so must run after the
                 VerifySwaggerDocsExist step. *)
              '(generatedData, err) ← generateSwaggerDocs packageName docsForTypes;
              match err with
              | Some err => mret (Some (fmt_Errorf_w "error generating swagger docs: " err))
              | None =>
                  same ← reflect_DeepEqual (Some data) generatedData;
                  if negb same then
                    mret (Some (errors_New "swagger docs are out of date, please regenerate the swagger docs"))
                  else mret None
              end
          end
      end
  end.

(** *** Notions the properties are stated with *)

(** The state after the renderer ran. *)
Definition rendered_world (l : loc) (w : World) : World :=
  world_of (kruntime_WriteSwaggerDocFunc l w).

(** The outcome of the completeness check [verifySwaggerDocs] starts with. *)
Definition check_outcome (docsForTypes : loc) (w : World) : CheckOutcome Env :=
  VerifySwaggerDocsExist (env w) (heap w !!! docsForTypes).

(** The completeness gate lets the run proceed: the checker returned no
    error, and a positive count is not enforced. *)
Definition gate_open (docsForTypes : loc) (enforceComments : bool) (w : World) : Prop :=
  chk_err (check_outcome docsForTypes w) = None /\
  (chk_rc (check_outcome docsForTypes w) > 0 -> enforceComments = false).

(** The state in which [verifySwaggerDocs] regenerates once the gate let it
    proceed and the baseline was read: after the check, the warning if the
    count is positive, and the read. *)
Definition regeneration_world (filePath : string) (docsForTypes : loc) (w : World) : World :=
  let '((buf, rc, _), w1) := kruntime_VerifySwaggerDocsExist docsForTypes w in
  let w2 := if bool_decide (rc > 0) then world_of (klog_Warningf (missing_warning rc buf) w1) else w1 in
  world_of (ioutil_ReadFile filePath w2).

(** What the regeneration inside [verifySwaggerDocs] returns. *)
Definition regenerated (packageName filePath : string) (docsForTypes : loc) (w : World)
  : option string * option error :=
  result_of (generateSwaggerDocs packageName docsForTypes (regeneration_world filePath docsForTypes w)).

(** The caller's write of a generated artifact, between a generation and a
    verification. *)
Definition write_file (filename data : string) (w : World) : World :=
  mkWorld (heap w) (<[filename := data]> (files w)) (env w) (calls w).

(** A generation from the slice [generated], the write of its artifact to
    [filename], and a verification against that file with the slice
    [verified]. *)
Definition roundtrip_between (packageName filename : string) (generated verified : loc)
    (enforceComments : bool) : M (option error) :=
  '(out, err) ← generateSwaggerDocs packageName generated;
  match out, err with
  | Some data, None =>
      (fun w => (tt, write_file filename data w));;
      verifySwaggerDocs packageName filename verified enforceComments
  | _, _ => mret err
  end.

(** The same with one slice for both. *)
Definition roundtrip (packageName filename : string) (docsForTypes : loc) (enforceComments : bool)
  : M (option error) :=
  roundtrip_between packageName filename docsForTypes docsForTypes enforceComments.

(** Contract of the checker: on records with an undocumented field it returns
    no error and a positive count. *)
Definition checker_flags_undocumented : Prop :=
  forall (e : Env) (docs : list KubeTypes),
    has_undocumented docs = true ->
    chk_err (VerifySwaggerDocsExist e docs) = None /\ chk_rc (VerifySwaggerDocsExist e docs) > 0.

(** The services answer by their arguments alone, whatever the state of the
    libraries. *)
Definition deterministic_checker : Prop :=
  forall (e1 e2 : Env) (docs : list KubeTypes),
    chk_docs (VerifySwaggerDocsExist e1 docs) = chk_docs (VerifySwaggerDocsExist e2 docs) /\
    chk_out (VerifySwaggerDocsExist e1 docs) = chk_out (VerifySwaggerDocsExist e2 docs) /\
    chk_rc (VerifySwaggerDocsExist e1 docs) = chk_rc (VerifySwaggerDocsExist e2 docs) /\
    chk_err (VerifySwaggerDocsExist e1 docs) = chk_err (VerifySwaggerDocsExist e2 docs).

Definition deterministic_renderer : Prop :=
  forall (e1 e2 : Env) (docs : list KubeTypes),
    rnd_docs (WriteSwaggerDocFunc e1 docs) = rnd_docs (WriteSwaggerDocFunc e2 docs) /\
    rnd_out (WriteSwaggerDocFunc e1 docs) = rnd_out (WriteSwaggerDocFunc e2 docs) /\
    rnd_err (WriteSwaggerDocFunc e1 docs) = rnd_err (WriteSwaggerDocFunc e2 docs).

Definition deterministic_formatter : Prop :=
  forall (e1 e2 : Env) (src : string), snd (Source e1 src) = snd (Source e2 src).

(** Formatted source is never empty. *)
Definition formatter_output_nonempty : Prop :=
  forall (e e' : Env) (src out : string), Source e src = (e', Ok out) -> out <> "".

End Swaggerdocs.

(** Unfolds the sequencing of a run. *)
Ltac unfold_run := unfold mbind, M_bind, mret, M_ret, world_of.

(** ** Stand-ins for the services

    Small services to run the package on concrete inputs.  They have no
    state of their own.  The checker lists and counts the undocumented
    fields; the renderer emits one map and one method per record with a
    documented field; the formatter accepts a source that opens with a
    package clause and returns it as it is.  Three switches give the
    behaviours the package has a branch for: a checker that fails, a
    renderer that fails, and a renderer that blanks the type names of the
    records it has rendered. *)

Record StandIn : Type := mkStandIn {
  checker_fails : bool;
  renderer_fails : bool;
  renderer_blanks : bool
}.

(** The double quote and the tab. *)
Definition QUOTE : string := String "034"%char EmptyString.

Definition TAB : string := String "009"%char EmptyString.

(** One line of the checker's listing per undocumented field. *)
Definition listing_of (missing : list (string * string)) : string :=
  fold_right (fun m acc => fst m ++ "." ++ snd m ++ LF ++ acc) "" missing.

Definition stand_in_check (c : StandIn) (docs : list KubeTypes) : CheckOutcome unit :=
  if checker_fails c then
    mkCheckOutcome tt docs "" (-1) (Some (errorString "short write"))
  else
    mkCheckOutcome tt docs (listing_of (undocumented docs))
                   (Z.of_nat (length (undocumented docs))) None.

(** The entries of the documented fields of a record. *)
Definition render_fields (fields : list Pair) : string :=
  fold_right
    (fun p acc =>
       if empty_doc p then acc
       else TAB ++ QUOTE ++ Name p ++ QUOTE ++ ": " ++ QUOTE ++ Doc p ++ QUOTE ++ "," ++ LF ++ acc)
    "" fields.

Definition render_type (t : KubeTypes) : string :=
  if forallb empty_doc (Fields t) then ""
  else
    "var map_" ++ TypeName t ++ " = map[string]string{" ++ LF
    ++ render_fields (Fields t)
    ++ "}" ++ LF ++ LF
    ++ "func (" ++ TypeName t ++ ") SwaggerDoc() map[string]string {" ++ LF
    ++ TAB ++ "return map_" ++ TypeName t ++ LF
    ++ "}" ++ LF ++ LF.

Definition stand_in_render (c : StandIn) (docs : list KubeTypes) : RenderOutcome unit :=
  if renderer_fails c then
    mkRenderOutcome tt docs "" (Some (errorString "short write"))
  else
    mkRenderOutcome tt
      (if renderer_blanks c then map (fun t => mkKubeTypes "" (Fields t)) docs else docs)
      (fold_right (fun t acc => render_type t ++ acc) "" docs)
      None.

(** Whether a byte is a letter or the underscore. *)
Definition is_letter (a : ascii) : bool :=
  let n := nat_of_ascii a in
  ((65 <=? n)%nat && (n <=? 90)%nat) || ((97 <=? n)%nat && (n <=? 122)%nat) || (n =? 95)%nat.

(** Whether a source opens with the keyword package and the first letter of
    a name. *)
Definition opens_with_package (src : string) : bool :=
  String.prefix "package " src &&
  match String.get 8 src with
  | Some a => is_letter a
  | None => false
  end.

Definition stand_in_format (src : string) : result string :=
  if opens_with_package src then Ok src
  else Err (errorString "1:9: expected 'IDENT'").

Definition stand_in (c : StandIn) : Services := {|
  Env := unit;
  VerifySwaggerDocsExist := fun _ docs => stand_in_check c docs;
  WriteSwaggerDocFunc := fun _ docs => stand_in_render c docs;
  Source := fun _ src => (tt, stand_in_format src)
|}.

(** The services with every switch off. *)
Definition plain : Services := stand_in (mkStandIn false false false).

(** The services whose renderer blanks the type names it has rendered. *)
Definition blanking : Services := stand_in (mkStandIn false false true).

(** The services whose checker fails. *)
Definition broken_checker : Services := stand_in (mkStandIn true false false).

(** The services whose renderer fails. *)
Definition broken_renderer : Services := stand_in (mkStandIn false true false).

(** *** Inputs *)

(** The slice the runs below work on. *)
Definition the_slice : loc := 1%positive.

(** A state with the given records in the slice and the given files. *)
Definition world_with (S : Services) (e : @Env S) (docs : list KubeTypes) (fs : gmap string string)
  : @World S :=
  mkWorld {[ the_slice := docs ]} fs e [].

(** One type with one documented field. *)
Definition pod_documented : list KubeTypes :=
  [ mkKubeTypes "Pod" [ mkPair "Spec" "desired state" ] ].

(** One type with one documented and one undocumented field. *)
Definition pod_undocumented : list KubeTypes :=
  [ mkKubeTypes "Pod" [ mkPair "Spec" "desired state"; mkPair "Status" "" ] ].

(** What the plain services generate for [pod_documented] in package widgets. *)
Definition widgets_artifact : string :=
  assembled "widgets" (render_type (mkKubeTypes "Pod" [ mkPair "Spec" "desired state" ])).

(** The artifact with its first byte changed from p to P. *)
Definition tampered_artifact : string :=
  match widgets_artifact with
  | String _ rest => String "P"%char rest
  | EmptyString => EmptyString
  end.

(** The path of the baseline in the runs below. *)
Definition baseline : string := DefaultOutputFileName.

(** Another slice, and a state that holds [pod_documented] there, with a
    file and a call already made. *)
Definition other_slice : loc := 2%positive.

Definition other_world : @World plain :=
  @mkWorld plain {[ other_slice := pod_documented ]} {[ baseline := tampered_artifact ]} tt
           [call_ReadFile baseline].

(** A state of the blanking services with the same records in two slices. *)
Definition two_slices (docs : list KubeTypes) (fs : gmap string string) : @World blanking :=
  @mkWorld blanking {[ the_slice := docs; other_slice := docs ]} fs tt [].

(** A state of the blanking services that holds [pod_documented] in the
    other slice only, with one more file and a call already made. *)
Definition other_world_blanking : @World blanking :=
  @mkWorld blanking {[ other_slice := pod_documented ]}
           {[ baseline := widgets_artifact; typesGlob := "" ]} tt [call_ReadFile baseline].

(** The messages of the warnings among the calls of a run, in order. *)
Definition warnings (cs : list Call) : list string :=
  flat_map (fun c => match c with call_Warningf msg => [msg] | _ => [] end) cs.

(** * Properties *)

(** ** Strings and errors *)

Lemma append_assoc (s1 s2 s3 : string) : (s1 ++ s2) ++ s3 = s1 ++ s2 ++ s3.
Proof.
  induction s1 as [|a s1 IH]; [reflexivity|].
  change (String a ((s1 ++ s2) ++ s3) = String a (s1 ++ s2 ++ s3)).
  now rewrite IH.
Qed.

Lemma differ_in_one_byte_neq (d d' : string) : differ_in_one_byte d d' -> d <> d'.
Proof.
  intros (pre & post & a & b & Hab & -> & ->) Heq.
  induction pre as [|c pre IH].
  - change (String a post = String b post) in Heq. now inversion Heq.
  - change (String c (pre ++ String a post) = String c (pre ++ String b post)) in Heq.
    inversion Heq; auto.
Qed.

(** The buffer of [generateSwaggerDocs] before formatting is [assembled]. *)
Lemma buffer_assembled (packageName out : string) :
  ((("" ++ ("package " ++ packageName ++ LF)) ++ headerContent) ++ out) ++ footerContent
  = assembled packageName out.
Proof.
  unfold assembled.
  change ("" ++ ("package " ++ packageName ++ LF)) with ("package " ++ packageName ++ LF).
  now rewrite !append_assoc.
Qed.

Section Properties.

Context `{S : Services}.

(** ** The runs of the two functions, case by case *)

Lemma generate_render_error (p : string) (l : loc) (w : World) (err : error) :
  rnd_err (WriteSwaggerDocFunc (env w) (heap w !!! l)) = Some err ->
  generateSwaggerDocs p l w = ((None, Some (RenderError err)), rendered_world l w).
Proof.
  intros H. unfold generateSwaggerDocs, kruntime_WriteSwaggerDocFunc, rendered_world.
  unfold_run. cbn [snd]. now rewrite H.
Qed.

Lemma generate_rendered (p : string) (l : loc) (w : World) :
  rnd_err (WriteSwaggerDocFunc (env w) (heap w !!! l)) = None ->
  generateSwaggerDocs p l w =
  let src := assembled p (rnd_out (WriteSwaggerDocFunc (env w) (heap w !!! l))) in
  let '(r, w') := format_Source src (rendered_world l w) in
  (match r with
   | Err err => (None, Some (FormatError err))
   | Ok formattedOut => (Some formattedOut, None)
   end, w').
Proof.
  intros H. unfold generateSwaggerDocs, kruntime_WriteSwaggerDocFunc, rendered_world.
  unfold_run. cbn [snd]. rewrite H.
  rewrite buffer_assembled. cbv zeta.
  destruct (format_Source _ _) as [[out|err] w']; reflexivity.
Qed.

Lemma verify_checker_error (p f : string) (l : loc) (e : bool) (w : World) (err : error) :
  chk_err (check_outcome l w) = Some err ->
  verifySwaggerDocs p f l e w
  = (Some (CheckerError err), world_of (kruntime_VerifySwaggerDocsExist l w)).
Proof.
  intros H. unfold check_outcome in H.
  unfold verifySwaggerDocs, kruntime_VerifySwaggerDocsExist.
  unfold_run. cbn [snd]. now rewrite H.
Qed.

Lemma verify_enforced (p f : string) (l : loc) (w : World) :
  chk_err (check_outcome l w) = None ->
  chk_rc (check_outcome l w) > 0 ->
  verifySwaggerDocs p f l true w
  = (Some (MissingDocsError (chk_rc (check_outcome l w)) (chk_out (check_outcome l w))),
     world_of (kruntime_VerifySwaggerDocsExist l w)).
Proof.
  intros Herr Hrc. unfold check_outcome in *.
  unfold verifySwaggerDocs, kruntime_VerifySwaggerDocsExist.
  unfold_run. cbn [snd]. rewrite Herr.
  now rewrite bool_decide_eq_true_2.
Qed.

Lemma verify_proceeds (p f : string) (l : loc) (e : bool) (w : World) :
  gate_open l e w ->
  verifySwaggerDocs p f l e w
  = match files w !! f with
    | None =>
        (Some (ReadError (errorString ("open " ++ f ++ ": no such file or directory"))),
         regeneration_world f l w)
    | Some data =>
        let '((generatedData, err), w') := generateSwaggerDocs p l (regeneration_world f l w) in
        match err with
        | Some err => (Some (GenerateError err), w')
        | None =>
            (if bool_decide (Some data = generatedData) then None else Some StaleError,
             world_of (reflect_DeepEqual (Some data) generatedData w'))
        end
    end.
Proof.
  intros [Herr Hrc]. unfold check_outcome in *.
  unfold verifySwaggerDocs, regeneration_world.
  unfold kruntime_VerifySwaggerDocsExist, klog_Warningf, ioutil_ReadFile, reflect_DeepEqual.
  unfold_run. rewrite Herr.
  destruct (bool_decide (chk_rc _ > 0)) eqn:Hpos.
  - apply bool_decide_eq_true_1 in Hpos. rewrite (Hrc Hpos). cbn [snd files heap env calls].
    destruct (files w !! f) as [data|]; [|reflexivity].
    destruct (generateSwaggerDocs _ _ _) as [[g [err|]] w']; [reflexivity|].
    destruct (bool_decide (Some data = g)); reflexivity.
  - cbn [snd files heap env calls].
    destruct (files w !! f) as [data|]; [|reflexivity].
    destruct (generateSwaggerDocs _ _ _) as [[g [err|]] w']; [reflexivity|].
    destruct (bool_decide (Some data = g)); reflexivity.
Qed.

(** The three ways the completeness check can end. *)
Lemma gate_cases (l : loc) (e : bool) (w : World) :
  (exists err, chk_err (check_outcome l w) = Some err) \/
  (chk_err (check_outcome l w) = None /\ chk_rc (check_outcome l w) > 0 /\ e = true) \/
  gate_open l e w.
Proof.
  destruct (chk_err (check_outcome l w)) as [err|] eqn:Herr; [left; eauto|].
  destruct (decide (chk_rc (check_outcome l w) > 0)) as [Hrc|Hrc].
  - destruct e; [right; left; auto|].
    right; right. split; auto.
  - right; right. split; [assumption|]. intros; contradiction.
Qed.

(** ** What a run leaves of the state *)

Lemma generate_result (p : string) (l : loc) (w : World) :
  result_of (generateSwaggerDocs p l w)
  = match rnd_err (WriteSwaggerDocFunc (env w) (heap w !!! l)) with
    | Some err => (None, Some (RenderError err))
    | None =>
        match snd (Source (rnd_env (WriteSwaggerDocFunc (env w) (heap w !!! l)))
                          (assembled p (rnd_out (WriteSwaggerDocFunc (env w) (heap w !!! l))))) with
        | Err err => (None, Some (FormatError err))
        | Ok formattedOut => (Some formattedOut, None)
        end
    end.
Proof.
  destruct (rnd_err _) as [err|] eqn:H.
  - now rewrite (generate_render_error _ _ _ _ H).
  - rewrite (generate_rendered _ _ _ H). cbv zeta.
    unfold format_Source, rendered_world, kruntime_WriteSwaggerDocFunc, world_of.
    cbn [snd env]. destruct (Source _ _) as [e' [out|err]]; reflexivity.
Qed.

Lemma generate_world (p : string) (l : loc) (w : World) :
  let w' := world_of (generateSwaggerDocs p l w) in
  files w' = files w /\
  heap w' = <[l := rnd_docs (WriteSwaggerDocFunc (env w) (heap w !!! l))]> (heap w) /\
  exists rest, calls w' = (calls w ++ call_WriteSwaggerDocFunc l :: rest)%list.
Proof.
  cbv zeta. destruct (rnd_err (WriteSwaggerDocFunc (env w) (heap w !!! l))) as [err|] eqn:H.
  - rewrite (generate_render_error _ _ _ _ H).
    unfold rendered_world, kruntime_WriteSwaggerDocFunc, world_of. cbn [snd files heap calls].
    repeat split. now exists [].
  - rewrite (generate_rendered _ _ _ H). cbv zeta.
    unfold format_Source, rendered_world, kruntime_WriteSwaggerDocFunc, world_of.
    cbn [snd env files heap calls]. destruct (Source _ _) as [e' r].
    cbn [snd files heap calls]. repeat split.
    eexists. rewrite <- app_assoc. reflexivity.
Qed.

Lemma regeneration_world_frame (f : string) (l : loc) (w : World) :
  files (regeneration_world f l w) = files w /\
  heap (regeneration_world f l w) = <[l := chk_docs (check_outcome l w)]> (heap w) /\
  calls (regeneration_world f l w)
  = (calls w ++ call_VerifySwaggerDocsExist l
       :: (if bool_decide (chk_rc (check_outcome l w) > 0)
           then [call_Warningf (missing_warning (chk_rc (check_outcome l w)) (chk_out (check_outcome l w)))]
           else [])
       ++ [call_ReadFile f])%list.
Proof.
  unfold regeneration_world, check_outcome, kruntime_VerifySwaggerDocsExist, klog_Warningf,
    ioutil_ReadFile, world_of.
  destruct (bool_decide (chk_rc _ > 0)); cbn [snd files heap env calls];
    repeat split; now rewrite <- !app_assoc.
Qed.

Lemma has_undocumented_iff (docs : list KubeTypes) :
  has_undocumented docs = true <-> some_field_undocumented docs.
Proof.
  unfold has_undocumented, some_field_undocumented, empty_doc. rewrite existsb_exists. split.
  - intros (t & Ht & Hex). apply existsb_exists in Hex as (q & Hq & Hdoc).
    apply String.eqb_eq in Hdoc. eauto.
  - intros (t & q & Ht & Hq & Hdoc). exists t. split; [assumption|].
    apply existsb_exists. exists q. split; [assumption|]. now apply String.eqb_eq.
Qed.

(** The error of the checker's failure is none of the others. *)
Lemma CheckerError_distinct (err : error) :
  (forall rc listing, CheckerError err <> MissingDocsError rc listing) /\
  (forall cause, CheckerError err <> ReadError cause) /\
  (forall cause, CheckerError err <> GenerateError cause) /\
  (forall cause, CheckerError err <> RenderError cause) /\
  (forall cause, CheckerError err <> FormatError cause) /\
  CheckerError err <> StaleError.
Proof.
  unfold CheckerError, MissingDocsError, ReadError, GenerateError, RenderError, FormatError,
    StaleError, fmt_Errorf_w, errors_New.
  repeat split; try discriminate; intros cause H; injection H as Hmsg _;
    cbv [append] in Hmsg; discriminate.
Qed.

(** ** The frame *)

(** C9: neither [verifySwaggerDocs] nor [generateSwaggerDocs] writes,
    creates or modifies a file: whatever the input and whatever the outcome
    (success or any failure), the files after the run are the files before
    it. *)
Theorem no_file_is_written (p f : string) (l : loc) (e : bool) (w : World) :
  files (world_of (verifySwaggerDocs p f l e w)) = files w /\
  files (world_of (generateSwaggerDocs p l w)) = files w.
Proof.
  split; [|apply generate_world].
  destruct (gate_cases l e w) as [[err Herr]|[(Herr & Hrc & ->)|Hopen]].
  - now rewrite (verify_checker_error _ _ _ _ _ _ Herr).
  - now rewrite (verify_enforced _ _ _ _ Herr Hrc).
  - rewrite (verify_proceeds p f _ _ _ Hopen).
    destruct (regeneration_world_frame f l w) as (Hfiles & _ & _).
    destruct (files w !! f) as [data|]; [|exact Hfiles].
    destruct (generate_world p l (regeneration_world f l w)) as (Hgen & _ & _).
    destruct (generateSwaggerDocs p l (regeneration_world f l w)) as [[g [err|]] w'];
      unfold world_of, reflect_DeepEqual in *; cbn [snd files] in *; congruence.
Qed.

(** ** Failures of the completeness check *)

(** C10: when the completeness checker itself returns an error,
    [verifySwaggerDocs] fails at once with that error wrapped, for both
    values of enforceComments; the checker's call is the only library call
    of the run (no file is read, nothing is generated), and the error is
    none of MissingDocsError, ReadError, RenderError/FormatError and
    StaleError. *)
Theorem checker_failure_is_terminal (p f : string) (l : loc) (e : bool) (w : World) (err : error) :
  chk_err (check_outcome l w) = Some err ->
  result_of (verifySwaggerDocs p f l e w) = Some (CheckerError err) /\
  Unwrap (CheckerError err) = Some err /\
  calls (world_of (verifySwaggerDocs p f l e w)) = (calls w ++ [call_VerifySwaggerDocsExist l])%list /\
  (forall rc listing, CheckerError err <> MissingDocsError rc listing) /\
  (forall cause, CheckerError err <> ReadError cause) /\
  (forall cause, CheckerError err <> GenerateError cause) /\
  (forall cause, CheckerError err <> RenderError cause) /\
  (forall cause, CheckerError err <> FormatError cause) /\
  CheckerError err <> StaleError.
Proof.
  intros Herr. rewrite (verify_checker_error _ _ _ _ _ _ Herr).
  repeat split; try apply CheckerError_distinct.
Qed.

(** C3: when a field of the records has an empty description and
    enforceComments is true, [verifySwaggerDocs] fails with
    MissingDocsError carrying the checker's count and listing, and the
    checker's call is the only library call of the run: no file read, no
    regeneration, no comparison.  The checker is taken at its contract: on
    such records it returns no error and a positive count. *)
Theorem enforced_missing_docs_fail_first (p f : string) (l : loc) (w : World) :
  checker_flags_undocumented ->
  some_field_undocumented (heap w !!! l) ->
  result_of (verifySwaggerDocs p f l true w)
  = Some (MissingDocsError (chk_rc (check_outcome l w)) (chk_out (check_outcome l w))) /\
  chk_rc (check_outcome l w) > 0 /\
  calls (world_of (verifySwaggerDocs p f l true w)) = (calls w ++ [call_VerifySwaggerDocsExist l])%list.
Proof.
  intros Hcontract Hundoc. apply has_undocumented_iff in Hundoc.
  destruct (Hcontract (env w) _ Hundoc) as [Herr Hrc].
  rewrite (verify_enforced p f l w Herr Hrc). now repeat split.
Qed.

Lemma undocumented_opens_gate (l : loc) (w : World) :
  checker_flags_undocumented ->
  some_field_undocumented (heap w !!! l) ->
  gate_open l false w /\ chk_rc (check_outcome l w) > 0.
Proof.
  intros Hcontract Hundoc. apply has_undocumented_iff in Hundoc.
  destruct (Hcontract (env w) _ Hundoc) as [Herr Hrc].
  repeat split; assumption.
Qed.

Lemma MissingDocsError_not_StaleError (rc : Z) (listing : string) :
  StaleError <> MissingDocsError rc listing.
Proof.
  unfold StaleError, MissingDocsError, errors_New. intros H. injection H as Hmsg.
  cbv [append] in Hmsg. discriminate.
Qed.

(** C4: when a field of the records has an empty description and
    enforceComments is false, [verifySwaggerDocs] logs the warning and goes
    on to read the baseline (the calls of the run start with the check, the
    warning and the read); it never fails with MissingDocsError; and when
    the baseline is readable and regeneration succeeds the run ends with
    the comparison of the two, succeeding when they are the same bytes.
    The checker is taken at its contract, as in C3. *)
Theorem unenforced_missing_docs_warn_only (p f : string) (l : loc) (w : World) :
  checker_flags_undocumented ->
  some_field_undocumented (heap w !!! l) ->
  (exists rest,
     calls (world_of (verifySwaggerDocs p f l false w))
     = (calls w
        ++ [call_VerifySwaggerDocsExist l;
            call_Warningf (missing_warning (chk_rc (check_outcome l w)) (chk_out (check_outcome l w)));
            call_ReadFile f]
        ++ rest)%list) /\
  (forall rc listing,
     result_of (verifySwaggerDocs p f l false w) <> Some (MissingDocsError rc listing)) /\
  (forall data g,
     files w !! f = Some data ->
     regenerated p f l w = (g, None) ->
     (exists before,
        calls (world_of (verifySwaggerDocs p f l false w))
        = (before ++ [call_DeepEqual (Some data) g])%list) /\
     (g = Some data -> result_of (verifySwaggerDocs p f l false w) = None)).
Proof.
  intros Hcontract Hundoc.
  destruct (undocumented_opens_gate l w Hcontract Hundoc) as [Hopen Hrc].
  rewrite (verify_proceeds p f _ _ _ Hopen).
  destruct (regeneration_world_frame f l w) as (_ & _ & Hcalls).
  rewrite (bool_decide_eq_true_2 _ Hrc) in Hcalls.
  unfold regenerated, result_of.
  destruct (generate_world p l (regeneration_world f l w)) as (_ & _ & (rest & Hgen)).
  split; [|split].
  - destruct (files w !! f) as [data|].
    + destruct (generateSwaggerDocs p l (regeneration_world f l w)) as [[g [err|]] w'];
        unfold world_of, reflect_DeepEqual in *; cbn [snd calls] in *;
        rewrite Hgen, Hcalls; repeat rewrite <- app_assoc; simpl; eexists; reflexivity.
    + exists []. unfold world_of; cbn [snd]. rewrite Hcalls. reflexivity.
  - intros rc listing. destruct (files w !! f) as [data|]; [|discriminate].
    destruct (generateSwaggerDocs p l (regeneration_world f l w)) as [[g [err|]] w'];
      cbn [fst]; [discriminate|].
    destruct (bool_decide (Some data = g)); [discriminate|].
    intros H. apply (inj Some) in H. exact (MissingDocsError_not_StaleError _ _ H).
  - intros data g Hfile Hregen. rewrite Hfile.
    destruct (generateSwaggerDocs p l (regeneration_world f l w)) as [[g' err] w'].
    cbn [fst] in Hregen. injection Hregen as -> ->. split.
    + exists (calls w'). reflexivity.
    + intros ->. cbn [fst]. now rewrite bool_decide_eq_true_2.
Qed.

(** ** The read of the baseline *)

(** C5, amended: [verifySwaggerDocs] on a path that names no file fails
    with ReadError, for both values of enforceComments, whenever the
    completeness gate lets the run reach the read: the checker returned no
    error, and its count is not positive or enforceComments is false.
    Nothing is generated or compared in such a run. *)
Theorem missing_file_is_ReadError (p f : string) (l : loc) (e : bool) (w : World) :
  files w !! f = None ->
  gate_open l e w ->
  result_of (verifySwaggerDocs p f l e w)
  = Some (ReadError (errorString ("open " ++ f ++ ": no such file or directory"))) /\
  calls (world_of (verifySwaggerDocs p f l e w)) = calls (regeneration_world f l w).
Proof.
  intros Hfile Hopen. rewrite (verify_proceeds p f _ _ _ Hopen), Hfile. now split.
Qed.

(** ** Generation *)

(** With a deterministic renderer and formatter the result of a generation
    is a function of the package name and the records. *)
Lemma generate_result_agree (p : string) (l1 l2 : loc) (w1 w2 : World) :
  deterministic_renderer ->
  deterministic_formatter ->
  heap w1 !!! l1 = heap w2 !!! l2 ->
  result_of (generateSwaggerDocs p l1 w1) = result_of (generateSwaggerDocs p l2 w2).
Proof.
  intros Hrnd Hfmt Hdocs. rewrite !generate_result, Hdocs.
  destruct (Hrnd (env w1) (env w2) (heap w2 !!! l2)) as (_ & Hout & Herr).
  rewrite Hout, Herr.
  destruct (rnd_err (WriteSwaggerDocFunc (env w2) (heap w2 !!! l2))); [reflexivity|].
  now rewrite (Hfmt (rnd_env (WriteSwaggerDocFunc (env w1) (heap w2 !!! l2)))
                    (rnd_env (WriteSwaggerDocFunc (env w2) (heap w2 !!! l2)))).
Qed.

(** C7: with a renderer and a formatter that behave deterministically, two
    calls of [generateSwaggerDocs] with the same package name and records
    of the same contents return the same result (the same bytes, or the
    same failure), in whatever states they run: other files, other calls
    before, another state of the libraries, another slice.  In particular a
    call repeated right after the first, on records the renderer left as
    they were, returns what the first returned. *)
Theorem generate_deterministic (p : string) (l1 l2 : loc) (w1 w2 : World) :
  deterministic_renderer ->
  deterministic_formatter ->
  (heap w1 !!! l1 = heap w2 !!! l2 ->
   result_of (generateSwaggerDocs p l1 w1) = result_of (generateSwaggerDocs p l2 w2)) /\
  (rnd_docs (WriteSwaggerDocFunc (env w1) (heap w1 !!! l1)) = heap w1 !!! l1 ->
   result_of (generateSwaggerDocs p l1 (world_of (generateSwaggerDocs p l1 w1)))
   = result_of (generateSwaggerDocs p l1 w1)).
Proof.
  intros Hrnd Hfmt. split.
  - now apply generate_result_agree.
  - intros Hkeep. apply generate_result_agree; try assumption.
    destruct (generate_world p l1 w1) as (_ & Hheap & _).
    rewrite Hheap, lookup_total_insert_eq. exact Hkeep.
Qed.

(** C8: when the renderer fails on the records, [generateSwaggerDocs]
    returns no bytes and RenderError; when the text assembled from the
    package line, the header, the rendered records and the footer is not
    source the formatter accepts, it returns no bytes and FormatError; and
    whenever it returns an error it returns no bytes. *)
Theorem generate_failures (p : string) (l : loc) (w : World) :
  (forall err,
     rnd_err (WriteSwaggerDocFunc (env w) (heap w !!! l)) = Some err ->
     result_of (generateSwaggerDocs p l w) = (None, Some (RenderError err))) /\
  (forall err,
     rnd_err (WriteSwaggerDocFunc (env w) (heap w !!! l)) = None ->
     snd (Source (rnd_env (WriteSwaggerDocFunc (env w) (heap w !!! l)))
                 (assembled p (rnd_out (WriteSwaggerDocFunc (env w) (heap w !!! l))))) = Err err ->
     result_of (generateSwaggerDocs p l w) = (None, Some (FormatError err))) /\
  (forall out err, result_of (generateSwaggerDocs p l w) = (out, Some err) -> out = None).
Proof.
  rewrite generate_result. repeat split.
  - intros err ->. reflexivity.
  - intros err -> ->. reflexivity.
  - intros out err.
    destruct (rnd_err _); [congruence|]. destruct (snd _); congruence.
Qed.

(** The bytes a generation returns are the formatter's output. *)
Lemma generate_success_formatted (p : string) (l : loc) (w : World) (g : string) :
  result_of (generateSwaggerDocs p l w) = (Some g, None) ->
  exists (e e' : Env) (src : string), Source e src = (e', Ok g).
Proof.
  rewrite generate_result. destruct (rnd_err _); [discriminate|].
  destruct (Source _ _) as [e' r] eqn:Hsrc. cbn [snd].
  destruct r as [out|err]; [|discriminate].
  intros H. injection H as ->. eauto.
Qed.

(** ** The comparison *)

Lemma verify_result_compared (p f : string) (l : loc) (e : bool) (w : World) (data g : string) :
  gate_open l e w ->
  files w !! f = Some data ->
  regenerated p f l w = (Some g, None) ->
  result_of (verifySwaggerDocs p f l e w) = if decide (data = g) then None else Some StaleError.
Proof.
  intros Hopen Hfile Hregen. rewrite (verify_proceeds p f _ _ _ Hopen), Hfile.
  unfold regenerated, result_of in Hregen.
  destruct (generateSwaggerDocs p l (regeneration_world f l w)) as [[g' err] w''].
  cbn [fst] in Hregen. injection Hregen as -> ->.
  destruct (decide (data = g)) as [->|Hne]; cbn [fst].
  - now rewrite bool_decide_eq_true_2.
  - rewrite bool_decide_eq_false_2; [reflexivity|congruence].
Qed.

(** With deterministic services, what the checker answers and what the
    regeneration returns depend on the records alone. *)
Lemma regenerated_agree (p f f' : string) (l : loc) (e : bool) (w w' : World) :
  deterministic_checker ->
  deterministic_renderer ->
  deterministic_formatter ->
  heap w' !!! l = heap w !!! l ->
  regenerated p f' l w' = regenerated p f l w /\ (gate_open l e w -> gate_open l e w').
Proof.
  intros Hchk Hrnd Hfmt Hdocs.
  destruct (Hchk (env w') (env w) (heap w !!! l)) as (Hd & _ & Hrc & Herr). split.
  - unfold regenerated. apply generate_result_agree; try assumption.
    destruct (regeneration_world_frame f l w) as (_ & -> & _).
    destruct (regeneration_world_frame f' l w') as (_ & -> & _).
    rewrite !lookup_total_insert_eq. unfold check_outcome. now rewrite Hdocs.
  - unfold gate_open, check_outcome. rewrite Hdocs, Hrc, Herr. tauto.
Qed.

(** C2, amended: once the completeness gate lets the run proceed (the
    checker returned no error, and its count is not positive or
    enforceComments is false), for a readable baseline and records whose
    regeneration succeeds, [verifySwaggerDocs] succeeds exactly when the
    bytes of the file are the regenerated bytes, and fails with StaleError
    when they differ; an empty file fails with StaleError, formatted source
    being never empty; and after a successful verification, a baseline
    changed in one byte makes a verification of records with the same
    contents fail with StaleError, the services being deterministic. *)
Theorem verify_compares_bytes (p f : string) (l : loc) (e : bool) (w w' : World)
    (data data' g : string) :
  gate_open l e w ->
  files w !! f = Some data ->
  regenerated p f l w = (Some g, None) ->
  (result_of (verifySwaggerDocs p f l e w) = None <-> data = g) /\
  (data <> g -> result_of (verifySwaggerDocs p f l e w) = Some StaleError) /\
  (formatter_output_nonempty -> data = "" ->
   result_of (verifySwaggerDocs p f l e w) = Some StaleError) /\
  (deterministic_checker -> deterministic_renderer -> deterministic_formatter ->
   result_of (verifySwaggerDocs p f l e w) = None ->
   heap w' !!! l = heap w !!! l ->
   files w' !! f = Some data' ->
   differ_in_one_byte data data' ->
   result_of (verifySwaggerDocs p f l e w') = Some StaleError).
Proof.
  intros Hopen Hfile Hregen.
  pose proof (verify_result_compared p f l e w data g Hopen Hfile Hregen) as Hres.
  repeat split.
  - rewrite Hres. destruct (decide (data = g)); [trivial|discriminate].
  - intros ->. rewrite Hres. now rewrite decide_True.
  - intros Hne. rewrite Hres. now rewrite decide_False.
  - intros Hnonempty ->. rewrite Hres. rewrite decide_False; [reflexivity|].
    destruct (generate_success_formatted _ _ _ _ Hregen) as (e1 & e2 & src & Hsrc).
    intros Heq. exact (Hnonempty _ _ _ _ Hsrc (eq_sym Heq)).
  - intros Hchk Hrnd Hfmt Hok Hdocs Hfile' Hdiff.
    rewrite Hres in Hok. destruct (decide (data = g)) as [->|]; [|discriminate].
    destruct (regenerated_agree p f f l e w w' Hchk Hrnd Hfmt Hdocs) as [Hsame Hgate].
    rewrite Hregen in Hsame.
    rewrite (verify_result_compared p f l e w' data' g (Hgate Hopen) Hfile' Hsame).
    rewrite decide_False; [reflexivity|].
    intros Heq. exact (differ_in_one_byte_neq _ _ Hdiff (eq_sym Heq)).
Qed.

(** ** The round trip *)

(** C1, amended: for a package name and records on which generation
    succeeds, generating, writing the bytes to a file and verifying that
    file succeeds provided the completeness gate lets the verification
    proceed (the checker returns no error, and its count is not positive
    or enforceComments is false), the records the verification regenerates
    from (the slice it is handed, as the completeness check leaves it) have
    the contents the generation started from, and the renderer and the
    formatter are deterministic.  The generation writes to the slice it is
    given, so the slice handed to the verification is one the generation
    has not changed: another slice with the same contents, or the same
    slice if the renderer left it as it was. *)
Theorem roundtrip_succeeds (p f : string) (l l' : loc) (e : bool) (w : World) (data : string) :
  result_of (generateSwaggerDocs p l w) = (Some data, None) ->
  gate_open l' e (write_file f data (world_of (generateSwaggerDocs p l w))) ->
  chk_docs (check_outcome l' (write_file f data (world_of (generateSwaggerDocs p l w))))
  = heap w !!! l ->
  deterministic_renderer ->
  deterministic_formatter ->
  result_of (roundtrip_between p f l l' e w) = None.
Proof.
  intros Hgen Hopen Hdocs Hrnd Hfmt.
  assert (Hrun : generateSwaggerDocs p l w
                 = ((Some data, None), world_of (generateSwaggerDocs p l w))).
  { unfold result_of, world_of in *.
    destruct (generateSwaggerDocs p l w) as [r w1]. cbn [fst snd] in *. now subst r. }
  set (w1 := world_of (generateSwaggerDocs p l w)) in *.
  assert (Hsame : regenerated p f l' (write_file f data w1) = (Some data, None)).
  { unfold regenerated. rewrite <- Hgen.
    apply generate_result_agree; try assumption.
    destruct (regeneration_world_frame f l' (write_file f data w1)) as (_ & -> & _).
    rewrite lookup_total_insert_eq. exact Hdocs. }
  assert (Hfile : files (write_file f data w1) !! f = Some data).
  { unfold write_file; cbn [files]. apply lookup_insert_eq. }
  pose proof (verify_result_compared p f l' e _ data data Hopen Hfile Hsame) as Hres.
  rewrite decide_True in Hres by reflexivity.
  unfold roundtrip_between, mbind, M_bind, mret, M_ret. rewrite Hrun. exact Hres.
Qed.

(** ** The shape of the text and of the outcomes *)

Lemma prefix_append (s t : string) : String.prefix s (s ++ t) = true.
Proof.
  induction s as [|a s IH]; [now destruct t|].
  change (String.prefix (String a s) (String a (s ++ t)) = true).
  cbn [String.prefix]. destruct (ascii_dec a a); [exact IH|congruence].
Qed.

(** X1: the text handed to the formatter opens with the package line; the
    notes of the header and the start marker follow, then the rendered
    text, then the end marker; and the formatter gets exactly this text,
    right after the renderer ran. *)
Theorem generate_assembles (p : string) (l : loc) (w : World) :
  rnd_err (WriteSwaggerDocFunc (env w) (heap w !!! l)) = None ->
  calls (world_of (generateSwaggerDocs p l w))
  = (calls w ++ [call_WriteSwaggerDocFunc l;
                 call_Source (assembled p (rnd_out (WriteSwaggerDocFunc (env w) (heap w !!! l))))])%list /\
  (forall out : string,
     String.prefix ("package " ++ p ++ LF) (assembled p out) = true /\
     exists notes : string,
       assembled p out
       = "package " ++ p ++ LF ++ notes
         ++ "// AUTO-GENERATED FUNCTIONS START HERE" ++ LF
         ++ out
         ++ "// AUTO-GENERATED FUNCTIONS END HERE" ++ LF).
Proof.
  intros Herr. split.
  - rewrite (generate_rendered _ _ _ Herr). cbv zeta.
    unfold format_Source, rendered_world, kruntime_WriteSwaggerDocFunc, world_of.
    cbn [snd env calls]. destruct (Source _ _) as [e' r]. cbn [snd calls].
    now rewrite <- app_assoc.
  - intros out. split.
    + replace (assembled p out)
        with (("package " ++ p ++ LF) ++ headerContent ++ out ++ footerContent)
        by (unfold assembled; now rewrite !append_assoc).
      apply prefix_append.
    + exists (substring 0 (String.length headerContent - 39) headerContent).
      unfold assembled, footerContent.
      replace headerContent with
        (substring 0 (String.length headerContent - 39) headerContent
         ++ "// AUTO-GENERATED FUNCTIONS START HERE" ++ LF) at 1 by (vm_compute; reflexivity).
      now rewrite !append_assoc.
Qed.

(** X2: a run of [verifySwaggerDocs] ends in success or in one of these
    failures: the wrapped error of the checker, MissingDocsError (only
    when enforced, with a positive count), ReadError, the wrapped
    RenderError or FormatError of the generation, StaleError. *)
Theorem verify_outcomes (p f : string) (l : loc) (e : bool) (w : World) :
  result_of (verifySwaggerDocs p f l e w) = None \/
  (exists err, result_of (verifySwaggerDocs p f l e w) = Some (CheckerError err)) \/
  (exists rc listing,
     e = true /\ rc > 0 /\
     result_of (verifySwaggerDocs p f l e w) = Some (MissingDocsError rc listing)) \/
  (exists err, result_of (verifySwaggerDocs p f l e w) = Some (ReadError err)) \/
  (exists err, result_of (verifySwaggerDocs p f l e w) = Some (GenerateError (RenderError err))) \/
  (exists err, result_of (verifySwaggerDocs p f l e w) = Some (GenerateError (FormatError err))) \/
  result_of (verifySwaggerDocs p f l e w) = Some StaleError.
Proof.
  destruct (gate_cases l e w) as [[err Herr]|[(Herr & Hrc & ->)|Hopen]].
  { rewrite (verify_checker_error _ _ _ _ _ _ Herr). right; left. now exists err. }
  { rewrite (verify_enforced _ _ _ _ Herr Hrc). right; right; left. eauto. }
  rewrite (verify_proceeds p f _ _ _ Hopen).
  destruct (files w !! f) as [data|] eqn:Hfile.
  2:{ right; right; right; left. eauto. }
  pose proof (generate_result p l (regeneration_world f l w)) as Hgen.
  unfold result_of in *.
  destruct (generateSwaggerDocs p l (regeneration_world f l w)) as [[g err] w'].
  cbn [fst] in Hgen.
  destruct (rnd_err _) as [rerr|].
  { injection Hgen as -> ->. do 4 right; left. now exists rerr. }
  destruct (snd (Source _ _)) as [out|ferr]; injection Hgen as -> ->.
  - cbn [fst]. destruct (bool_decide _); [now left|now do 6 right].
  - do 5 right; left. now exists ferr.
Qed.

End Properties.

(** ** The stand-ins meet the contracts *)

Lemma undocumented_nonempty (docs : list KubeTypes) :
  has_undocumented docs = true -> (0 < length (undocumented docs))%nat.
Proof.
  induction docs as [|t docs IH]; [discriminate|].
  unfold has_undocumented, undocumented in *. cbn [existsb flat_map].
  rewrite length_app, length_map. intros H. apply orb_true_iff in H as [H|H].
  - assert (0 < length (filter (fun q => empty_doc q = true) (Fields t)))%nat; [|lia].
    induction (Fields t) as [|q qs IHq]; [discriminate|].
    cbn [existsb] in H. rewrite filter_cons.
    destruct (decide (empty_doc q = true)); [cbn; lia|].
    apply orb_true_iff in H as [H|H]; [contradiction|]. now apply IHq.
  - specialize (IH H). lia.
Qed.

Lemma plain_checker_contract : checker_flags_undocumented (S := plain).
Proof.
  intros [] docs H. cbn. split; [reflexivity|].
  apply undocumented_nonempty in H. lia.
Qed.

Lemma plain_deterministic :
  deterministic_checker (S := plain) /\
  deterministic_renderer (S := plain) /\
  deterministic_formatter (S := plain).
Proof. repeat split. Qed.

Lemma plain_formatter_nonempty : formatter_output_nonempty (S := plain).
Proof.
  intros [] [] src out. cbn. unfold stand_in_format.
  destruct (opens_with_package src) eqn:H; [|discriminate].
  intros [= <-] ->. discriminate.
Qed.

(** ** Runs *)

(** The stand-ins have no state, so they answer by their arguments alone. *)
Lemma blanking_deterministic :
  deterministic_checker (S := blanking) /\
  deterministic_renderer (S := blanking) /\
  deterministic_formatter (S := blanking).
Proof. repeat split. Qed.

(** C1, as stated, fails in two ways.  Generation succeeds on records with
    an undocumented field, the bytes are written to the baseline, and the
    verification of that baseline with the same records and
    enforceComments true fails with MissingDocsError.  And with a renderer
    that blanks the type names of the records it has rendered, every field
    documented and nothing enforced, the verification of the baseline with
    the same slice regenerates other bytes and fails with StaleError. *)
Lemma roundtrip_same_records_fails :
  (result_of (generateSwaggerDocs (S := plain) "widgets" the_slice
                (world_with plain tt pod_undocumented ∅))
   = (Some widgets_artifact, None) /\
   result_of (roundtrip (S := plain) "widgets" baseline the_slice true
                (world_with plain tt pod_undocumented ∅))
   = Some (MissingDocsError 1 ("Pod.Status" ++ LF))) /\
  (result_of (generateSwaggerDocs (S := blanking) "widgets" the_slice
                (world_with blanking tt pod_documented ∅))
   = (Some widgets_artifact, None) /\
   result_of (roundtrip (S := blanking) "widgets" baseline the_slice false
                (world_with blanking tt pod_documented ∅))
   = Some StaleError).
Proof. repeat split; vm_compute; reflexivity. Qed.

(** A run of the amended C1, with the renderer that blanks the type names:
    the records have an undocumented field, nothing is enforced, the
    generation runs on one slice and the verification on another slice
    with the same records, and the round trip succeeds. *)
Lemma roundtrip_succeeds_witness :
  result_of (generateSwaggerDocs (S := blanking) "widgets" the_slice
               (two_slices pod_undocumented ∅))
  = (Some widgets_artifact, None) /\
  heap (world_of (generateSwaggerDocs (S := blanking) "widgets" the_slice
                    (two_slices pod_undocumented ∅))) !!! the_slice
  <> pod_undocumented /\
  result_of (roundtrip_between (S := blanking) "widgets" baseline the_slice other_slice false
               (two_slices pod_undocumented ∅))
  = None.
Proof.
  assert (Hgen : result_of (generateSwaggerDocs (S := blanking) "widgets" the_slice
                              (two_slices pod_undocumented ∅))
                 = (Some widgets_artifact, None)) by (vm_compute; reflexivity).
  split; [exact Hgen|]. split; [vm_compute; discriminate|].
  apply (roundtrip_succeeds (S := blanking) "widgets" baseline the_slice other_slice false
           (two_slices pod_undocumented ∅) widgets_artifact Hgen).
  - split; [vm_compute; reflexivity|reflexivity].
  - vm_compute; reflexivity.
  - apply blanking_deterministic.
  - apply blanking_deterministic.
Defined.

(** C2, as stated, fails: the baseline holds exactly the bytes the records
    regenerate to, and the verification with enforceComments true does not
    succeed: it fails with MissingDocsError, not with StaleError. *)
Lemma matching_baseline_enforced_fails :
  files (world_with plain tt pod_undocumented {[ baseline := widgets_artifact ]}) !! baseline
  = Some widgets_artifact /\
  result_of (generateSwaggerDocs (S := plain) "widgets" the_slice
               (world_with plain tt pod_undocumented {[ baseline := widgets_artifact ]}))
  = (Some widgets_artifact, None) /\
  result_of (verifySwaggerDocs (S := plain) "widgets" baseline the_slice true
               (world_with plain tt pod_undocumented {[ baseline := widgets_artifact ]}))
  = Some (MissingDocsError 1 ("Pod.Status" ++ LF)) /\
  MissingDocsError 1 ("Pod.Status" ++ LF) <> StaleError.
Proof.
  repeat split; [vm_compute; reflexivity ..|].
  intros H. symmetry in H. exact (MissingDocsError_not_StaleError _ _ H).
Qed.

Lemma tampered_differs : differ_in_one_byte widgets_artifact tampered_artifact.
Proof.
  exists "", (substring 1 (String.length widgets_artifact) widgets_artifact), "p"%char, "P"%char.
  repeat split; [discriminate|vm_compute; reflexivity ..].
Qed.

(** Runs of the amended C2: the baseline holds the regenerated bytes and
    the verification succeeds; with the first byte of the baseline changed
    the verification of the same records fails with StaleError; and so
    does the verification of an empty baseline. *)
Lemma verify_compares_bytes_witness :
  gate_open (S := plain) the_slice true
    (world_with plain tt pod_documented {[ baseline := widgets_artifact ]}) /\
  result_of (verifySwaggerDocs (S := plain) "widgets" baseline the_slice true
               (world_with plain tt pod_documented {[ baseline := widgets_artifact ]}))
  = None /\
  result_of (verifySwaggerDocs (S := plain) "widgets" baseline the_slice true
               (world_with plain tt pod_documented {[ baseline := tampered_artifact ]}))
  = Some StaleError /\
  result_of (verifySwaggerDocs (S := plain) "widgets" baseline the_slice true
               (world_with plain tt pod_documented {[ baseline := "" ]}))
  = Some StaleError.
Proof.
  assert (Hopen : gate_open (S := plain) the_slice true
                    (world_with plain tt pod_documented {[ baseline := widgets_artifact ]})).
  { split; [reflexivity|]. vm_compute. discriminate. }
  split; [exact Hopen|].
  destruct (verify_compares_bytes (S := plain) "widgets" baseline the_slice true
              (world_with plain tt pod_documented {[ baseline := widgets_artifact ]})
              (world_with plain tt pod_documented {[ baseline := tampered_artifact ]})
              widgets_artifact tampered_artifact widgets_artifact Hopen)
    as (Hiff & _ & _ & Hchanged); [vm_compute; reflexivity ..|].
  assert (Hok : result_of (verifySwaggerDocs (S := plain) "widgets" baseline the_slice true
                  (world_with plain tt pod_documented {[ baseline := widgets_artifact ]})) = None)
    by (apply Hiff; reflexivity).
  split; [exact Hok|]. split.
  - apply Hchanged; try apply plain_deterministic; try exact Hok.
    + reflexivity.
    + vm_compute; reflexivity.
    + exact tampered_differs.
  - assert (Hopen' : gate_open (S := plain) the_slice true
                       (world_with plain tt pod_documented {[ baseline := "" ]})).
    { split; [reflexivity|]. vm_compute. discriminate. }
    destruct (verify_compares_bytes (S := plain) "widgets" baseline the_slice true
                (world_with plain tt pod_documented {[ baseline := "" ]})
                (world_with plain tt pod_documented {[ baseline := "" ]})
                "" "" widgets_artifact Hopen')
      as (_ & _ & Hempty & _); [vm_compute; reflexivity ..|].
    apply Hempty; [exact plain_formatter_nonempty|reflexivity].
Defined.

(** A run of C3: an undocumented field, enforceComments true, no baseline
    at all: MissingDocsError with the count 1 and the listing, after the
    one call of the checker. *)
Lemma enforced_missing_docs_fail_first_witness :
  some_field_undocumented (heap (world_with plain tt pod_undocumented ∅) !!! the_slice) /\
  result_of (verifySwaggerDocs (S := plain) "widgets" baseline the_slice true
               (world_with plain tt pod_undocumented ∅))
  = Some (MissingDocsError 1 ("Pod.Status" ++ LF)) /\
  calls (world_of (verifySwaggerDocs (S := plain) "widgets" baseline the_slice true
                     (world_with plain tt pod_undocumented ∅)))
  = [call_VerifySwaggerDocsExist the_slice].
Proof.
  assert (Hundoc : some_field_undocumented
                     (heap (world_with plain tt pod_undocumented ∅) !!! the_slice)).
  { apply has_undocumented_iff. vm_compute. reflexivity. }
  split; [exact Hundoc|].
  destruct (enforced_missing_docs_fail_first (S := plain) "widgets" baseline the_slice
              (world_with plain tt pod_undocumented ∅) plain_checker_contract Hundoc)
    as (Hres & _ & Hcalls).
  split; [exact Hres|exact Hcalls].
Defined.

(** A run of C4: an undocumented field, enforceComments false, and a
    baseline that holds the regenerated bytes: the verification succeeds. *)
Lemma unenforced_missing_docs_warn_only_witness :
  some_field_undocumented
    (heap (world_with plain tt pod_undocumented {[ baseline := widgets_artifact ]}) !!! the_slice) /\
  result_of (verifySwaggerDocs (S := plain) "widgets" baseline the_slice false
               (world_with plain tt pod_undocumented {[ baseline := widgets_artifact ]}))
  = None.
Proof.
  assert (Hundoc : some_field_undocumented
                     (heap (world_with plain tt pod_undocumented {[ baseline := widgets_artifact ]})
                        !!! the_slice)).
  { apply has_undocumented_iff. vm_compute. reflexivity. }
  split; [exact Hundoc|].
  destruct (unenforced_missing_docs_warn_only (S := plain) "widgets" baseline the_slice
              (world_with plain tt pod_undocumented {[ baseline := widgets_artifact ]})
              plain_checker_contract Hundoc)
    as (_ & _ & Hcompare).
  destruct (Hcompare widgets_artifact (Some widgets_artifact)) as [_ Hok];
    [vm_compute; reflexivity ..|].
  now apply Hok.
Defined.

(** C5, as stated, fails: the path names no file, the records have an
    undocumented field and enforceComments is true; the verification fails
    with MissingDocsError, which is no ReadError. *)
Lemma missing_file_enforced_is_MissingDocsError :
  files (world_with plain tt pod_undocumented ∅) !! baseline = None /\
  result_of (verifySwaggerDocs (S := plain) "widgets" baseline the_slice true
               (world_with plain tt pod_undocumented ∅))
  = Some (MissingDocsError 1 ("Pod.Status" ++ LF)) /\
  (forall cause, MissingDocsError 1 ("Pod.Status" ++ LF) <> ReadError cause).
Proof.
  split; [vm_compute; reflexivity|]. split; [vm_compute; reflexivity|].
  intros cause. discriminate.
Qed.

(** A run of the amended C5: every field documented, enforceComments true,
    no baseline: ReadError. *)
Lemma missing_file_is_ReadError_witness :
  files (world_with plain tt pod_documented ∅) !! baseline = None /\
  gate_open (S := plain) the_slice true (world_with plain tt pod_documented ∅) /\
  result_of (verifySwaggerDocs (S := plain) "widgets" baseline the_slice true
               (world_with plain tt pod_documented ∅))
  = Some (ReadError (errorString ("open " ++ baseline ++ ": no such file or directory"))).
Proof.
  assert (Hopen : gate_open (S := plain) the_slice true (world_with plain tt pod_documented ∅)).
  { split; [reflexivity|]. vm_compute. discriminate. }
  assert (Hfile : files (world_with plain tt pod_documented ∅) !! baseline = None)
    by (vm_compute; reflexivity).
  split; [exact Hfile|]. split; [exact Hopen|].
  apply (missing_file_is_ReadError (S := plain) "widgets" baseline the_slice true
           (world_with plain tt pod_documented ∅) Hfile Hopen).
Defined.

(** A run of C7: the same records in two states that differ in the slice,
    the files and the calls already made. *)
Lemma generate_deterministic_witness :
  result_of (generateSwaggerDocs (S := plain) "widgets" the_slice
               (world_with plain tt pod_documented ∅))
  = result_of (generateSwaggerDocs (S := plain) "widgets" other_slice other_world).
Proof.
  apply (generate_deterministic (S := plain) "widgets" the_slice other_slice
           (world_with plain tt pod_documented ∅) other_world).
  - apply plain_deterministic.
  - apply plain_deterministic.
  - reflexivity.
Defined.

(** Runs of C8: a renderer that fails, and a package name that leaves the
    assembled text without a package clause. *)
Lemma generate_failures_witness :
  result_of (generateSwaggerDocs (S := broken_renderer) "widgets" the_slice
               (world_with broken_renderer tt pod_documented ∅))
  = (None, Some (RenderError (errorString "short write"))) /\
  result_of (generateSwaggerDocs (S := plain) "" the_slice (world_with plain tt pod_documented ∅))
  = (None, Some (FormatError (errorString "1:9: expected 'IDENT'"))).
Proof.
  split.
  - apply (generate_failures (S := broken_renderer) "widgets" the_slice
             (world_with broken_renderer tt pod_documented ∅)). reflexivity.
  - apply (generate_failures (S := plain) "" the_slice (world_with plain tt pod_documented ∅));
      vm_compute; reflexivity.
Defined.

(** A run of C10: the checker fails; the verification returns its error
    wrapped, after that one call, whatever enforceComments is. *)
Lemma checker_failure_is_terminal_witness :
  chk_err (check_outcome (S := broken_checker) the_slice
             (world_with broken_checker tt pod_documented ∅))
  = Some (errorString "short write") /\
  (forall e : bool,
     result_of (verifySwaggerDocs (S := broken_checker) "widgets" baseline the_slice e
                  (world_with broken_checker tt pod_documented ∅))
     = Some (CheckerError (errorString "short write")) /\
     calls (world_of (verifySwaggerDocs (S := broken_checker) "widgets" baseline the_slice e
                        (world_with broken_checker tt pod_documented ∅)))
     = [call_VerifySwaggerDocsExist the_slice]).
Proof.
  split; [reflexivity|]. intros e.
  destruct (checker_failure_is_terminal (S := broken_checker) "widgets" baseline the_slice e
              (world_with broken_checker tt pod_documented ∅) (errorString "short write") eq_refl)
    as (Hres & _ & Hcalls & _).
  split; [exact Hres|exact Hcalls].
Defined.

(** A run of X1: the calls of a generation in package widgets. *)
Lemma generate_assembles_witness :
  calls (world_of (generateSwaggerDocs (S := plain) "widgets" the_slice
                     (world_with plain tt pod_documented ∅)))
  = [call_WriteSwaggerDocFunc the_slice; call_Source widgets_artifact] /\
  String.prefix ("package widgets" ++ LF) widgets_artifact = true.
Proof.
  destruct (generate_assembles (S := plain) "widgets" the_slice
              (world_with plain tt pod_documented ∅) eq_refl) as [Hcalls Hshape].
  split; [exact Hcalls|].
  exact (proj1 (Hshape (render_type (mkKubeTypes "Pod" [ mkPair "Spec" "desired state" ])))).
Defined.


(** * The pipeline as a whole *)

Section Pipeline.

Context `{S : Services}.

(** ** The verdict, stage by stage *)

Lemma gate_open_iff (l : loc) (e : bool) (w : World) :
  gate_open l e w <->
  chk_err (check_outcome l w) = None /\
  bool_decide (chk_rc (check_outcome l w) > 0) && e = false.
Proof.
  unfold gate_open. split; intros [Herr H]; (split; [assumption|]).
  - destruct (decide (chk_rc (check_outcome l w) > 0)) as [Hrc|Hrc].
    + now rewrite (H Hrc), andb_false_r.
    + now rewrite bool_decide_eq_false_2.
  - intros Hrc. rewrite bool_decide_eq_true_2 in H by assumption. exact H.
Qed.

(** The result of a verification from the outcomes of its stages, first
    failure first. *)
Lemma verify_result_table (p f : string) (l : loc) (e : bool) (w : World) :
  result_of (verifySwaggerDocs p f l e w)
  = match chk_err (check_outcome l w) with
    | Some err => Some (CheckerError err)
    | None =>
        if bool_decide (chk_rc (check_outcome l w) > 0) && e
        then Some (MissingDocsError (chk_rc (check_outcome l w)) (chk_out (check_outcome l w)))
        else
          match files w !! f with
          | None => Some (ReadError (errorString ("open " ++ f ++ ": no such file or directory")))
          | Some data =>
              match regenerated p f l w with
              | (_, Some err) => Some (GenerateError err)
              | (g, None) => if bool_decide (Some data = g) then None else Some StaleError
              end
          end
    end.
Proof.
  destruct (gate_cases l e w) as [[err Herr]|[(Herr & Hrc & ->)|Hopen]].
  - now rewrite (verify_checker_error _ _ _ _ _ _ Herr), Herr.
  - rewrite (verify_enforced _ _ _ _ Herr Hrc), Herr.
    now rewrite bool_decide_eq_true_2.
  - rewrite (verify_proceeds p f _ _ _ Hopen).
    apply gate_open_iff in Hopen as [-> ->].
    destruct (files w !! f) as [data|]; [|reflexivity].
    unfold regenerated, result_of.
    destruct (generateSwaggerDocs p l (regeneration_world f l w)) as [[g [err|]] w'];
      reflexivity.
Qed.

(** X3: [verifySwaggerDocs] returns nil exactly when the checker returned
    no error, a positive count is not enforced, the file exists, and the
    regeneration returns, without error, the very bytes of the file; and a
    file it accepts is what the formatter returned for a text assembled
    from the package line, the header, some rendered text and the footer. *)
Theorem verify_succeeds_iff (p f : string) (l : loc) (e : bool) (w : World) :
  (result_of (verifySwaggerDocs p f l e w) = None <->
   gate_open l e w /\
   exists data, files w !! f = Some data /\ regenerated p f l w = (Some data, None)) /\
  (result_of (verifySwaggerDocs p f l e w) = None ->
   exists (data rendered : string) (e1 e2 : Env),
     files w !! f = Some data /\ Source e1 (assembled p rendered) = (e2, Ok data)).
Proof.
  assert (Hiff : result_of (verifySwaggerDocs p f l e w) = None <->
                 gate_open l e w /\
                 exists data, files w !! f = Some data /\ regenerated p f l w = (Some data, None)).
  { rewrite verify_result_table, gate_open_iff. split.
    - destruct (chk_err _); [discriminate|].
      destruct (bool_decide _ && e); [discriminate|].
      destruct (files w !! f) as [data|]; [|discriminate].
      destruct (regenerated p f l w) as [g [err|]]; [discriminate|].
      destruct (bool_decide (Some data = g)) eqn:Hsame; [|discriminate].
      apply bool_decide_eq_true_1 in Hsame as <-. eauto.
    - intros [[-> ->] (data & -> & ->)]. now rewrite bool_decide_eq_true_2. }
  split; [exact Hiff|].
  intros Hok. apply Hiff in Hok as (_ & data & Hfile & Hregen).
  unfold regenerated in Hregen. rewrite generate_result in Hregen.
  destruct (rnd_err _); [discriminate|].
  destruct (Source _ _) as [e2 r] eqn:Hsrc. cbn [snd] in Hregen.
  destruct r as [out|err]; [|discriminate].
  injection Hregen as ->. eauto 6.
Qed.

(** X4: [verifySwaggerDocs] fails with StaleError exactly when the checker
    returned no error, a positive count is not enforced, the file exists,
    the regeneration returned no error, and what it returned is not the
    bytes of the file. *)
Theorem verify_stale_iff (p f : string) (l : loc) (e : bool) (w : World) :
  result_of (verifySwaggerDocs p f l e w) = Some StaleError <->
  gate_open l e w /\
  exists data g,
    files w !! f = Some data /\ regenerated p f l w = (g, None) /\ g <> Some data.
Proof.
  rewrite verify_result_table, gate_open_iff. split.
  - destruct (chk_err _) as [err|]; [discriminate|].
    destruct (bool_decide _ && e).
    { intros H. apply (inj Some) in H. symmetry in H.
      now apply MissingDocsError_not_StaleError in H. }
    destruct (files w !! f) as [data|]; [|discriminate].
    destruct (regenerated p f l w) as [g [err|]]; [discriminate|].
    destruct (bool_decide (Some data = g)) eqn:Hsame; [discriminate|].
    apply bool_decide_eq_false_1 in Hsame. intros _. split; [now split|].
    exists data, g. repeat split. congruence.
  - intros [[-> ->] (data & g & -> & -> & Hne)].
    rewrite bool_decide_eq_false_2; [reflexivity|congruence].
Qed.

(** ** The policy flag *)

Lemma enforce_matters (p f : string) (l : loc) (w : World) :
  verifySwaggerDocs p f l true w = verifySwaggerDocs p f l false w <->
  ~ (chk_err (check_outcome l w) = None /\ chk_rc (check_outcome l w) > 0).
Proof.
  split.
  - intros Heq [Herr Hrc].
    apply (f_equal result_of) in Heq.
    rewrite (verify_enforced _ _ _ _ Herr Hrc) in Heq.
    rewrite verify_result_table, Herr, andb_false_r in Heq.
    unfold result_of in Heq; cbn [fst] in Heq.
    destruct (files w !! f) as [data|]; [|discriminate].
    destruct (regenerated p f l w) as [g [err|]]; [discriminate|].
    destruct (bool_decide (Some data = g)); [discriminate|].
    apply (inj Some) in Heq. symmetry in Heq.
    exact (MissingDocsError_not_StaleError _ _ Heq).
  - intros Hnot.
    destruct (chk_err (check_outcome l w)) as [err|] eqn:Herr.
    + now rewrite !(verify_checker_error _ _ _ _ _ _ Herr).
    + assert (Hopen : forall e, gate_open l e w).
      { intros e. split; [assumption|]. intros Hrc. exfalso. apply Hnot. now split. }
      now rewrite (verify_proceeds p f _ _ _ (Hopen true)),
                  (verify_proceeds p f _ _ _ (Hopen false)).
Qed.

(** X5: enforceComments changes a verification exactly when the checker
    returns no error and a positive count: in every other case the two
    values of the flag give the same result and leave the same state, and
    in that case the results differ.  So a verification that does not end
    in MissingDocsError with the flag set ends the same way with the flag
    cleared: clearing the flag never turns a success into a failure. *)
Theorem enforce_matters_iff (p f : string) (l : loc) (w : World) :
  (verifySwaggerDocs p f l true w = verifySwaggerDocs p f l false w <->
   ~ (chk_err (check_outcome l w) = None /\ chk_rc (check_outcome l w) > 0)) /\
  ((forall rc listing,
      result_of (verifySwaggerDocs p f l true w) <> Some (MissingDocsError rc listing)) ->
   verifySwaggerDocs p f l true w = verifySwaggerDocs p f l false w).
Proof.
  split; [apply enforce_matters|].
  intros Hnot. apply enforce_matters. intros [Herr Hrc].
  apply (Hnot (chk_rc (check_outcome l w)) (chk_out (check_outcome l w))).
  now rewrite (verify_enforced _ _ _ _ Herr Hrc).
Qed.

(** ** The calls of a run *)

Lemma warnings_app (cs1 cs2 : list Call) :
  warnings (cs1 ++ cs2)%list = (warnings cs1 ++ warnings cs2)%list.
Proof. apply flat_map_app. Qed.

(** The calls of a generation: the renderer, then the formatter unless the
    renderer failed. *)
Lemma generate_calls (p : string) (l : loc) (w : World) :
  calls (world_of (generateSwaggerDocs p l w))
  = (calls w
     ++ call_WriteSwaggerDocFunc l
        :: match rnd_err (WriteSwaggerDocFunc (env w) (heap w !!! l)) with
           | Some _ => []
           | None => [call_Source (assembled p (rnd_out (WriteSwaggerDocFunc (env w) (heap w !!! l))))]
           end)%list.
Proof.
  destruct (rnd_err (WriteSwaggerDocFunc (env w) (heap w !!! l))) as [err|] eqn:H.
  - rewrite (generate_render_error _ _ _ _ H). reflexivity.
  - rewrite (generate_rendered _ _ _ H). cbv zeta.
    unfold format_Source, rendered_world, kruntime_WriteSwaggerDocFunc, world_of.
    cbn [snd env calls]. destruct (Source _ _) as [e' r]. cbn [snd calls].
    now rewrite <- app_assoc.
Qed.

(** X6: a generation logs no warning, and a verification logs at most one:
    the warning of the missing entries, with the checker's count and
    listing, exactly when the checker returned no error and a positive
    count and enforceComments is false. *)
Theorem warning_logged_iff (p f : string) (l : loc) (e : bool) (w : World) :
  warnings (calls (world_of (generateSwaggerDocs p l w))) = warnings (calls w) /\
  warnings (calls (world_of (verifySwaggerDocs p f l e w)))
  = (warnings (calls w)
     ++ match chk_err (check_outcome l w) with
        | Some _ => []
        | None =>
            if bool_decide (chk_rc (check_outcome l w) > 0) && negb e
            then [missing_warning (chk_rc (check_outcome l w)) (chk_out (check_outcome l w))]
            else []
        end)%list.
Proof.
  assert (Hgen : forall w0, warnings (calls (world_of (generateSwaggerDocs p l w0)))
                            = warnings (calls w0)).
  { intros w0. rewrite generate_calls, warnings_app.
    destruct (rnd_err _); cbn; now rewrite app_nil_r. }
  split; [apply Hgen|].
  destruct (gate_cases l e w) as [[err Herr]|[(Herr & Hrc & ->)|Hopen]].
  - rewrite (verify_checker_error _ _ _ _ _ _ Herr), Herr.
    unfold kruntime_VerifySwaggerDocsExist, world_of; cbn [snd calls].
    now rewrite warnings_app.
  - rewrite (verify_enforced _ _ _ _ Herr Hrc), Herr, andb_false_r.
    unfold kruntime_VerifySwaggerDocsExist, world_of; cbn [snd calls].
    now rewrite warnings_app.
  - assert (Hregen : warnings (calls (regeneration_world f l w))
                     = (warnings (calls w)
                        ++ (if bool_decide (chk_rc (check_outcome l w) > 0) && negb e
                            then [missing_warning (chk_rc (check_outcome l w))
                                                  (chk_out (check_outcome l w))]
                            else []))%list).
    { destruct (regeneration_world_frame f l w) as (_ & _ & ->).
      destruct Hopen as [_ Hflag].
      destruct (bool_decide (chk_rc (check_outcome l w) > 0)) eqn:Hpos.
      - apply bool_decide_eq_true_1 in Hpos. rewrite (Hflag Hpos).
        rewrite warnings_app. cbn. reflexivity.
      - rewrite warnings_app. cbn. reflexivity. }
    rewrite (verify_proceeds p f _ _ _ Hopen). destruct Hopen as [-> _].
    destruct (files w !! f) as [data|]; [|exact Hregen].
    specialize (Hgen (regeneration_world f l w)).
    destruct (generateSwaggerDocs p l (regeneration_world f l w)) as [[g [err|]] w'];
      unfold world_of, reflect_DeepEqual in *; cbn [snd calls] in *.
    + congruence.
    + rewrite warnings_app. cbn. rewrite app_nil_r. congruence.
Qed.

(** X7: [generateSwaggerDocs] returns bytes and no error, or an error and
    no bytes, never both and never neither; it calls the renderer once,
    and the formatter once after it unless the renderer failed, in which
    case the formatter is not called at all. *)
Theorem generate_bytes_or_error (p : string) (l : loc) (w : World) :
  ((exists g, result_of (generateSwaggerDocs p l w) = (Some g, None)) \/
   (exists err, result_of (generateSwaggerDocs p l w) = (None, Some err))) /\
  (forall err,
     rnd_err (WriteSwaggerDocFunc (env w) (heap w !!! l)) = Some err ->
     calls (world_of (generateSwaggerDocs p l w)) = (calls w ++ [call_WriteSwaggerDocFunc l])%list) /\
  (rnd_err (WriteSwaggerDocFunc (env w) (heap w !!! l)) = None ->
   exists src,
     calls (world_of (generateSwaggerDocs p l w))
     = (calls w ++ [call_WriteSwaggerDocFunc l; call_Source src])%list).
Proof.
  rewrite generate_calls, generate_result. repeat split.
  - destruct (rnd_err _) as [err|]; [right; eauto|].
    destruct (snd _) as [out|err]; [left|right]; eauto.
  - intros err ->. reflexivity.
  - intros ->. eauto.
Qed.

(** ** The records after a run *)

(** The store after a verification that did not get to regenerate, and
    after one that did. *)
Lemma verify_heap_early (p f : string) (l : loc) (e : bool) (w : World) :
  ~ gate_open l e w \/ files w !! f = None ->
  heap (world_of (verifySwaggerDocs p f l e w)) = <[l := chk_docs (check_outcome l w)]> (heap w).
Proof.
  intros Hearly.
  destruct (gate_cases l e w) as [[err Herr]|[(Herr & Hrc & ->)|Hopen]].
  - now rewrite (verify_checker_error _ _ _ _ _ _ Herr).
  - now rewrite (verify_enforced _ _ _ _ Herr Hrc).
  - destruct Hearly as [Hclosed|Hfile]; [contradiction|].
    rewrite (verify_proceeds p f _ _ _ Hopen), Hfile.
    apply regeneration_world_frame.
Qed.

Lemma verify_heap_regenerated (p f : string) (l : loc) (e : bool) (w : World) (data : string) :
  gate_open l e w ->
  files w !! f = Some data ->
  heap (world_of (verifySwaggerDocs p f l e w))
  = <[l := rnd_docs (WriteSwaggerDocFunc (env (regeneration_world f l w))
                                         (chk_docs (check_outcome l w)))]>
      (<[l := chk_docs (check_outcome l w)]> (heap w)).
Proof.
  intros Hopen Hfile. rewrite (verify_proceeds p f _ _ _ Hopen), Hfile.
  destruct (generate_world p l (regeneration_world f l w)) as (_ & Hheap & _).
  destruct (regeneration_world_frame f l w) as (_ & Hregen & _).
  rewrite Hregen, lookup_total_insert_eq in Hheap.
  destruct (generateSwaggerDocs p l (regeneration_world f l w)) as [[g [err|]] w'];
    unfold world_of, reflect_DeepEqual in *; cbn [snd heap] in *; exact Hheap.
Qed.

(** X8: a run writes to no slice but the one it is given; a verification
    that ends before the regeneration (the checker failed, the count is
    enforced, or the file does not exist) leaves in the slice what the
    checker left there, the renderer not having run; and one that
    regenerates leaves what the renderer made of that. *)
Theorem records_after_run (p f : string) (l : loc) (e : bool) (w : World) :
  (forall l', l' <> l ->
     heap (world_of (verifySwaggerDocs p f l e w)) !! l' = heap w !! l' /\
     heap (world_of (generateSwaggerDocs p l w)) !! l' = heap w !! l') /\
  (~ gate_open l e w \/ files w !! f = None ->
   heap (world_of (verifySwaggerDocs p f l e w)) !!! l = chk_docs (check_outcome l w)) /\
  (forall data,
     gate_open l e w -> files w !! f = Some data ->
     heap (world_of (verifySwaggerDocs p f l e w)) !!! l
     = rnd_docs (WriteSwaggerDocFunc (env (regeneration_world f l w))
                                     (chk_docs (check_outcome l w)))).
Proof.
  split; [|split].
  - intros l' Hne. split.
    + destruct (gate_cases l e w) as [Hc|[Hc|Hopen]].
      * rewrite verify_heap_early; [now rewrite lookup_insert_ne|].
        left. intros [Herr _]. destruct Hc as [err Hc]. congruence.
      * rewrite verify_heap_early; [now rewrite lookup_insert_ne|].
        left. intros [_ Hflag]. destruct Hc as (_ & Hrc & ->). now specialize (Hflag Hrc).
      * destruct (files w !! f) as [data|] eqn:Hfile.
        -- rewrite (verify_heap_regenerated p f l e w data Hopen Hfile).
           now rewrite !lookup_insert_ne.
        -- rewrite verify_heap_early; [now rewrite lookup_insert_ne|now right].
    + destruct (generate_world p l w) as (_ & -> & _). now rewrite lookup_insert_ne.
  - intros Hearly. rewrite (verify_heap_early p f l e w Hearly).
    apply lookup_total_insert_eq.
  - intros data Hopen Hfile. rewrite (verify_heap_regenerated p f l e w data Hopen Hfile).
    apply lookup_total_insert_eq.
Qed.

(** ** What a verification depends on *)

(** X9: with a deterministic checker, renderer and formatter, the result
    of [verifySwaggerDocs] depends on the state only through the contents
    of the records and of the file at filePath: two states that agree on
    both give the same result, whatever their other files, their other
    slices, the calls made before and the state of the libraries. *)
Theorem verify_depends_on_records_and_file (p f : string) (l l' : loc) (e : bool) (w w' : World) :
  deterministic_checker ->
  deterministic_renderer ->
  deterministic_formatter ->
  heap w' !!! l' = heap w !!! l ->
  files w' !! f = files w !! f ->
  result_of (verifySwaggerDocs p f l' e w') = result_of (verifySwaggerDocs p f l e w).
Proof.
  intros Hchk Hrnd Hfmt Hdocs Hfile.
  destruct (Hchk (env w') (env w) (heap w !!! l)) as (Hd & Hout & Hrc & Herr).
  assert (Hregen : regenerated p f l' w' = regenerated p f l w).
  { unfold regenerated. apply generate_result_agree; try assumption.
    destruct (regeneration_world_frame f l w) as (_ & -> & _).
    destruct (regeneration_world_frame f l' w') as (_ & -> & _).
    rewrite !lookup_total_insert_eq. unfold check_outcome. now rewrite Hdocs. }
  rewrite !verify_result_table, Hregen, Hfile. unfold check_outcome.
  now rewrite Hdocs, Hout, Hrc, Herr.
Qed.

(** X10: with a deterministic renderer and formatter, a baseline that
    [verifySwaggerDocs] accepts is what a generation run right after it
    returns from records with the contents the verification regenerated
    from, that is, what the completeness check left in the slice.  The
    verification's own generation writes to the slice it was handed, so
    the records are taken from a slice that holds those contents after the
    run: another slice, or the same one if the renderer left it as it
    was. *)
Theorem verified_baseline_is_regenerated (p f : string) (l l' : loc) (e : bool) (w : World) :
  deterministic_renderer ->
  deterministic_formatter ->
  result_of (verifySwaggerDocs p f l e w) = None ->
  heap (world_of (verifySwaggerDocs p f l e w)) !!! l' = chk_docs (check_outcome l w) ->
  exists data,
    files w !! f = Some data /\
    result_of (generateSwaggerDocs p l' (world_of (verifySwaggerDocs p f l e w)))
    = (Some data, None).
Proof.
  intros Hrnd Hfmt Hok Hdocs.
  rewrite verify_result_table in Hok.
  destruct (chk_err (check_outcome l w)); [discriminate|].
  destruct (bool_decide _ && e); [discriminate|].
  destruct (files w !! f) as [data|]; [|discriminate].
  destruct (regenerated p f l w) as [g [err|]] eqn:Hregen; [discriminate|].
  destruct (bool_decide (Some data = g)) eqn:Hsame; [|discriminate].
  apply bool_decide_eq_true_1 in Hsame as <-.
  exists data. split; [reflexivity|].
  unfold regenerated in Hregen. rewrite <- Hregen.
  apply generate_result_agree; try assumption.
  rewrite Hdocs.
  destruct (regeneration_world_frame f l w) as (_ & -> & _).
  now rewrite lookup_total_insert_eq.
Qed.

End Pipeline.

(** ** Runs of the pipeline *)

(** A run of X9, with the renderer that blanks the type names: the same
    records and the same baseline in two states that differ in the slice,
    the other files and the calls made before; both verifications
    succeed. *)
Lemma verify_depends_on_records_and_file_witness :
  result_of (verifySwaggerDocs (S := blanking) "widgets" baseline other_slice false
               other_world_blanking)
  = result_of (verifySwaggerDocs (S := blanking) "widgets" baseline the_slice false
                 (world_with blanking tt pod_documented {[ baseline := widgets_artifact ]})) /\
  result_of (verifySwaggerDocs (S := blanking) "widgets" baseline the_slice false
               (world_with blanking tt pod_documented {[ baseline := widgets_artifact ]}))
  = None.
Proof.
  split; [|vm_compute; reflexivity].
  apply (verify_depends_on_records_and_file (S := blanking) "widgets" baseline
           the_slice other_slice false
           (world_with blanking tt pod_documented {[ baseline := widgets_artifact ]})
           other_world_blanking);
    try apply blanking_deterministic; vm_compute; reflexivity.
Defined.

(** A run of X10, with the renderer that blanks the type names: the
    verification of the artifact succeeds and blanks the slice it was
    handed; the generation after it, from the other slice, returns the
    artifact. *)
Lemma verified_baseline_is_regenerated_witness :
  result_of (verifySwaggerDocs (S := blanking) "widgets" baseline the_slice true
               (two_slices pod_documented {[ baseline := widgets_artifact ]}))
  = None /\
  heap (world_of (verifySwaggerDocs (S := blanking) "widgets" baseline the_slice true
                    (two_slices pod_documented {[ baseline := widgets_artifact ]})))
    !!! the_slice
  <> pod_documented /\
  exists data,
    files (two_slices pod_documented {[ baseline := widgets_artifact ]}) !! baseline
    = Some data /\
    result_of (generateSwaggerDocs (S := blanking) "widgets" other_slice
                 (world_of (verifySwaggerDocs (S := blanking) "widgets" baseline the_slice true
                              (two_slices pod_documented {[ baseline := widgets_artifact ]}))))
    = (Some data, None).
Proof.
  assert (Hok : result_of (verifySwaggerDocs (S := blanking) "widgets" baseline the_slice true
                  (two_slices pod_documented {[ baseline := widgets_artifact ]})) = None)
    by (vm_compute; reflexivity).
  split; [exact Hok|]. split; [vm_compute; discriminate|].
  apply (verified_baseline_is_regenerated (S := blanking) "widgets" baseline
           the_slice other_slice true
           (two_slices pod_documented {[ baseline := widgets_artifact ]}));
    try apply blanking_deterministic; [exact Hok|vm_compute; reflexivity].
Defined.
